(** * Ingestion logic of the interactive data-visualization app (src/app.py)

    A shallow embedding of [detect_delimiter], [load_example_data],
    [load_uploaded_file], [load_manual_data] and of the ingestion part of
    [main], followed by the properties of the specification that concern
    them.

    Python values are modelled as follows.
    - A [str] is the list of its Unicode code points ([N]).
    - [bytes] is a list of [Byte.byte].
    - [st.session_state] is a record holding the two attributes the program
      uses, [df] and [data_loaded].
    - The notices shown through [st.success], [st.error], [st.warning] and
      [st.info] are collected in the order they are emitted.
    - Exceptions and the early [return] of [load_uploaded_file] are outcomes
      of a small state/output/exception monad. *)

From Stdlib Require Import List NArith Arith Bool String Ascii Lia.
From Stdlib Require Import Permutation.
Import ListNotations.

Local Open Scope N_scope.
Local Open Scope list_scope.

(** ** Python strings *)

Module PyStr.

Definition char := N.
Definition str := list char.

(** Code points the program names in literals. *)
Definition COMMA : char := 44.
Definition TAB : char := 9.
Definition SPACE : char := 32.
Definition DOT : char := 46.
Definition LF : char := 10.
Definition CR : char := 13.
Definition QUOTE : char := 34.

(** An ASCII literal of the source as a [str]. *)
Definition py (s : string) : str :=
  map N_of_ascii (list_ascii_of_string s).

Definition str_eqb (a b : str) : bool :=
  if list_eq_dec N.eq_dec a b then true else false.

(** [x in [a; b; ...]] on a Python list of strings. *)
Definition str_in (x : str) (l : list str) : bool :=
  existsb (str_eqb x) l.

(** [s.startswith(sub)]. *)
Fixpoint startswith (s sub : str) : bool :=
  match sub, s with
  | [], _ => true
  | _ :: _, [] => false
  | a :: sub', c :: s' => (a =? c) && startswith s' sub'
  end.

(** [s.count(sub)] for a non-empty [sub]: occurrences are searched from
    left to right and do not overlap, so after a match the scan resumes
    [len(sub)] characters further; [skip] counts the characters of the
    last match still to be passed over. *)
Fixpoint count_scan (sub : str) (skip : nat) (s : str) : nat :=
  match s with
  | [] => 0%nat
  | _ :: s' =>
      match skip with
      | S k => count_scan sub k s'
      | O =>
          if startswith s sub
          then S (count_scan sub (Nat.pred (List.length sub)) s')
          else count_scan sub 0%nat s'
      end
  end.

(** [s.count(sub)]; for the empty [sub] Python answers [len(s) + 1]. *)
Definition count (s sub : str) : nat :=
  match sub with
  | [] => S (List.length s)
  | _ :: _ => count_scan sub 0%nat s
  end.

(** Raw number of occurrences of one character. *)
Fixpoint occurrences (c : char) (s : str) : nat :=
  match s with
  | [] => 0%nat
  | x :: s' => if x =? c then S (occurrences c s') else occurrences c s'
  end.

(** [s.split(sep)] for a one-character separator. *)
Fixpoint split (sep : char) (s : str) : list str :=
  match s with
  | [] => [[]]
  | c :: s' =>
      if c =? sep then [] :: split sep s'
      else match split sep s' with
           | [] => [[c]]
           | w :: ws => (c :: w) :: ws
           end
  end.

(** [sep.join(l)] for a one-character separator. *)
Fixpoint join (sep : char) (l : list str) : str :=
  match l with
  | [] => []
  | x :: rest =>
      match rest with
      | [] => x
      | _ :: _ => x ++ sep :: join sep rest
      end
  end.

(** [l[-1]] on a list of strings that [split] produced (never empty). *)
Definition last_item (l : list str) : str := List.last l [].

(** [c.lower()] on the code points whose lower case is an ASCII letter:
    the letters A-Z and the Kelvin sign (U+212A). The lower case of every
    other code point that Python changes holds a code point outside ASCII,
    so leaving those as they are does not affect the comparison of a
    lowered string with an ASCII literal, the only use the program makes
    of [lower]. *)
Definition lower_char (c : char) : char :=
  if (65 <=? c) && (c <=? 90) then c + 32
  else if c =? 8490 then 107
  else c.

Definition lower (s : str) : str := map lower_char s.

(** [c.isspace()]: the code points of Unicode white space. *)
Definition isspace (c : char) : bool :=
  ((9 <=? c) && (c <=? 13)) || ((28 <=? c) && (c <=? 32))
  || (c =? 133) || (c =? 160) || (c =? 5760)
  || ((8192 <=? c) && (c <=? 8202))
  || (c =? 8232) || (c =? 8233) || (c =? 8239) || (c =? 8287)
  || (c =? 12288).

(** [s.lstrip()], [s.rstrip()] and [s.strip()] without argument. *)
Fixpoint lstrip (s : str) : str :=
  match s with
  | [] => []
  | c :: s' => if isspace c then lstrip s' else s
  end.

Definition rstrip (s : str) : str := rev (lstrip (rev s)).

Definition strip (s : str) : str := rstrip (lstrip s).

(** Truth value of a string in a condition. *)
Definition truthy (s : str) : bool :=
  match s with [] => false | _ :: _ => true end.

End PyStr.

Import PyStr.

(** ** The delimiter detector *)

Definition detect_delimiter (content : str) : char :=
  if (count content [TAB] <? count content [COMMA])%nat
     && (count content [SPACE] <? count content [COMMA])%nat
  then COMMA
  else if (count content [SPACE] <? count content [TAB])%nat
  then TAB
  else SPACE.

(** ** Tabular datasets, files, notices and session state *)

Definition bytes := list Byte.byte.

(** The message carried by a Python exception, as [str(e)] gives it. *)
Definition exn := string.

(** What a call into a library gives back: a value, or a raised exception. *)
Inductive result (A : Type) : Type :=
| Ok (a : A)
| Err (e : exn).
Arguments Ok {A} a.
Arguments Err {A} e.

Inductive dtype : Type := Numeric | Categorical.

Record Column : Type := mkColumn {
  col_name : str;
  col_dtype : dtype;
  col_values : list str
}.

(** A data frame: its number of rows and its columns in order. Row labels
    are not modelled. *)
Record DataFrame : Type := mkDataFrame {
  df_nrows : nat;
  df_columns : list Column
}.

(** [len(df)] *)
Definition len (d : DataFrame) : nat := df_nrows d.

(** [df.columns.tolist()] *)
Definition column_names (d : DataFrame) : list str :=
  map col_name (df_columns d).

(** Streamlit's uploaded file: its name and its content. *)
Record UploadedFile : Type := mkUploadedFile {
  name : str;
  getvalue : bytes
}.

(** What [pd.read_csv] is given to read from: the uploaded file itself, or
    an [io.StringIO] over a string. *)
Inductive csv_source : Type :=
| Buffer (f : UploadedFile)
| StringIO (s : str).

(** The pieces of an f-string: literal text and interpolated values. *)
Inductive fragment : Type :=
| Lit (s : string)
| FStr (s : str)
| FLen (n : nat)
| FExn (e : exn).

Inductive level : Type := Success | Error | Warning | Info.

Record notice : Type := mkNotice {
  notice_level : level;
  notice_text : list fragment
}.

(** [st.session_state]: [df] is [None] until a dataset is stored. *)
Record session_state : Type := mkSession {
  df : option DataFrame;
  data_loaded : bool
}.

(** ** A monad for session state, notices, exceptions and early return *)

Inductive outcome (A : Type) : Type :=
| Normal (a : A)
| Raised (e : exn)
| Returned.
Arguments Normal {A} a.
Arguments Raised {A} e.
Arguments Returned {A}.

Definition M (A : Type) : Type :=
  session_state -> outcome A * session_state * list notice.

Definition ret {A} (a : A) : M A := fun s => (Normal a, s, []).

Definition bind {A B} (m : M A) (k : A -> M B) : M B :=
  fun s =>
    match m s with
    | (Normal a, s1, out1) =>
        match k a s1 with
        | (r, s2, out2) => (r, s2, out1 ++ out2)
        end
    | (Raised e, s1, out1) => (Raised e, s1, out1)
    | (Returned, s1, out1) => (Returned, s1, out1)
    end.

Notation "x <- m ;; k" := (bind m (fun x => k))
  (at level 61, m at next level, right associativity).
Notation "m ;; k" := (bind m (fun _ => k))
  (at level 61, right associativity).

(** A library call inside the program: its exception, if any, is raised. *)
Definition call {A} (r : result A) : M A :=
  fun s => match r with
           | Ok a => (Normal a, s, [])
           | Err e => (Raised e, s, [])
           end.

Definition raise {A} (e : exn) : M A := fun s => (Raised e, s, []).

(** The statement [return] *)
Definition return_ {A} : M A := fun s => (Returned, s, []).

(** [try: body except Exception as e: handler(e)]; the state changes and
    notices of [body] up to the exception are kept. *)
Definition try_except (body : M unit) (handler : exn -> M unit) : M unit :=
  fun s =>
    match body s with
    | (Raised e, s1, out1) =>
        match handler e s1 with
        | (r, s2, out2) => (r, s2, out1 ++ out2)
        end
    | other => other
    end.

(** The boundary of a function without a result: a [return] ends it
    normally, an exception passes through. *)
Definition def (body : M unit) : M unit :=
  fun s =>
    match body s with
    | (Returned, s1, out1) => (Normal tt, s1, out1)
    | other => other
    end.

Definition set_df (d : DataFrame) : M unit :=
  fun s => (Normal tt, mkSession (Some d) (data_loaded s), []).

Definition set_data_loaded (b : bool) : M unit :=
  fun s => (Normal tt, mkSession (df s) b, []).

Definition get_df : M (option DataFrame) := fun s => (Normal (df s), s, []).

Definition get_data_loaded : M bool := fun s => (Normal (data_loaded s), s, []).

Definition emit (l : level) (text : list fragment) : M unit :=
  fun s => (Normal tt, s, [mkNotice l text]).

Definition st_success := emit Success.
Definition st_error := emit Error.
Definition st_warning := emit Warning.
Definition st_info := emit Info.

(** [len(x)] where [x] may be [None]. *)
Definition len_of (x : option DataFrame) : M nat :=
  match x with
  | Some d => ret (len d)
  | None => raise "object of type 'NoneType' has no len()"%string
  end.

(** ** The libraries the program calls *)

Class Collaborators : Type := {
  (** [b.decode()] *)
  bytes_decode : bytes -> result str;
  (** [pd.read_csv(source, delimiter=d)] *)
  pd_read_csv : csv_source -> char -> result DataFrame;
  (** [pd.read_excel(f)], [pd.read_json(f)], [pd.read_parquet(f)] *)
  pd_read_excel : UploadedFile -> result DataFrame;
  pd_read_json : UploadedFile -> result DataFrame;
  pd_read_parquet : UploadedFile -> result DataFrame;
  (** [px.data.tips()] *)
  px_data_tips : DataFrame
}.

(** ** The ingestion functions *)

Section Ingestion.

Context {libs : Collaborators}.

Local Open Scope string_scope.

Definition load_example_data : M unit :=
  def (
    set_df px_data_tips ;;
    set_data_loaded true ;;
    d <- get_df ;;
    n <- len_of d ;;
    st_success [Lit "Loaded example dataset with "; FLen n; Lit " rows"]).

(** [uploaded_file.name.split('.')[-1].lower()] *)
Definition file_ext (uploaded_file : UploadedFile) : str :=
  lower (last_item (split DOT (name uploaded_file))).

Definition load_uploaded_file (uploaded_file : UploadedFile) : M unit :=
  def (
    try_except (
      let file_ext := file_ext uploaded_file in
      d <- (if str_in file_ext [py "csv"; py "tsv"; py "txt"] then
              content <- call (bytes_decode (getvalue uploaded_file)) ;;
              let delimiter := detect_delimiter content in
              call (pd_read_csv (Buffer uploaded_file) delimiter)
            else if str_eqb file_ext (py "xlsx") then
              call (pd_read_excel uploaded_file)
            else if str_eqb file_ext (py "json") then
              call (pd_read_json uploaded_file)
            else if str_eqb file_ext (py "parquet") then
              call (pd_read_parquet uploaded_file)
            else
              st_error [Lit "Unsupported file format. Please upload CSV, TSV, TXT, Excel, JSON, or Parquet."] ;;
              return_) ;;
      set_df d ;;
      set_data_loaded true ;;
      st_success [Lit "Successfully loaded "; FStr (name uploaded_file);
                  Lit " with "; FLen (len d); Lit " rows"])
    (fun e =>
      st_error [Lit "Could not read file: "; FExn e] ;;
      set_data_loaded false)).

Definition load_manual_data (manual_text : str) : M unit :=
  def (
    try_except (
      let delimiter := detect_delimiter manual_text in
      d <- call (pd_read_csv (StringIO manual_text) delimiter) ;;
      set_df d ;;
      set_data_loaded true ;;
      st_success [Lit "Successfully loaded manual data."])
    (fun e =>
      st_error [Lit "Could not process manual data: "; FExn e] ;;
      set_data_loaded false)).

(** What the widgets of one run of the page hand to [main]. *)
Record Inputs : Type := mkInputs {
  uploaded_file : option UploadedFile;
  manual_text : str;
  load_manual_clicked : bool;
  use_example_clicked : bool
}.

(** The section of [main] under the button "Load manual data". *)
Definition manual_section (clicked : bool) (text : str) : M unit :=
  if clicked then
    if truthy (strip text) then load_manual_data text
    else st_warning [Lit "Please enter some data before clicking the button."]
  else ret tt.

(** The initialisation at the top of [main]: [stored] is the session state
    kept from the previous run, [None] when "df" is not in it yet. *)
Definition main_session (stored : option session_state) : session_state :=
  match stored with
  | None => mkSession None false
  | Some s => s
  end.

(** [main] from the upload widget to the point where the stored dataset is
    handed to the plotting widgets. The result is the dataset to plot. *)
Definition main (inp : Inputs) : M (option DataFrame) :=
  (match uploaded_file inp with
   | Some f => load_uploaded_file f
   | None => ret tt
   end) ;;
  manual_section (load_manual_clicked inp) (manual_text inp) ;;
  (if use_example_clicked inp then load_example_data else ret tt) ;;
  loaded <- get_data_loaded ;;
  if negb loaded then
    st_info [Lit "Please upload a file, enter data manually, or use the example dataset."] ;;
    return_
  else get_df.

End Ingestion.

(** The whole run: the session is initialised when it is fresh, then the
    page is evaluated. An outcome [Returned] is the early [return] taken
    when no data is loaded. *)
Definition run_main {libs : Collaborators} (inp : Inputs)
    (stored : option session_state)
  : outcome (option DataFrame) * session_state * list notice :=
  main inp (main_session stored).

(** ** A reference model of the delimited-text parser *)

Module CsvModel.

(** White space in the sense of the tokenizer: space and tab. *)
Definition is_blank_char (d c : char) : bool :=
  ((c =? SPACE) || (c =? TAB)) && negb (c =? d).

(** A line is skipped when it is empty or holds only white space that is
    not the delimiter. *)
Definition blank_line (d : char) (l : str) : bool :=
  forallb (is_blank_char d) l.

Definition is_digit (c : char) : bool := (48 <=? c) && (c <=? 57).

Fixpoint digits_dot (seen_dot seen_digit : bool) (s : str) : bool :=
  match s with
  | [] => seen_digit
  | c :: s' =>
      if is_digit c then digits_dot seen_dot true s'
      else if (c =? DOT) && negb seen_dot then digits_dot true seen_digit s'
      else false
  end.

(** A cell that reads as a number; an empty cell is a missing value. *)
Definition numeric_text (s : str) : bool :=
  match s with
  | [] => true
  | c :: s' =>
      if (c =? 45) || (c =? 43) then digits_dot false false s'
      else digits_dot false false s
  end.

Definition infer_dtype (cells : list str) : dtype :=
  if forallb numeric_text cells then Numeric else Categorical.

(** The cells of position [i] in every row; a short row gives an empty
    cell. *)
Definition column_at (body : list (list str)) (i : nat) : list str :=
  map (fun r => nth i r []) body.

Fixpoint columns_from (i : nat) (names : list str) (body : list (list str))
  : list Column :=
  match names with
  | [] => []
  | n :: ns =>
      mkColumn n (infer_dtype (column_at body i)) (column_at body i)
      :: columns_from (S i) ns body
  end.

(** Modelled from the spec: the delimited-text parser ([pandas.read_csv],
    a library that is not part of src/): "parse as delimited tabular text
    with the first row as header". The text is cut into lines at line
    feeds, blank lines are skipped, the first remaining line gives the
    column names and every further line one row, cut at the delimiter.
    A first data row wider than the header sets the expected width, its
    leading cells being row labels; a later row wider than that is a
    parse error; a shorter row is filled with missing cells. Quoting,
    carriage returns and the renaming of empty or repeated header names
    are outside this model. *)
Definition read_csv_text (text : str) (d : char) : result DataFrame :=
  match filter (fun l => negb (blank_line d l)) (split LF text) with
  | [] => Err "No columns to parse from file"%string
  | h :: rest =>
      let header := split d h in
      let body := map (split d) rest in
      let w0 := List.length header in
      let w1 := match body with
                | [] => w0
                | r :: _ => Nat.max w0 (List.length r)
                end in
      if existsb (fun r => (w1 <? List.length r)%nat) (tl body)
      then Err "Error tokenizing data. C error: too many fields in a line"%string
      else Ok (mkDataFrame (List.length body)
                           (columns_from (w1 - w0) header body))
  end.

(** Strict UTF-8 decoding, as [bytes.decode()] does by default. *)
Definition continuation (b : N) : bool := (128 <=? b) && (b <=? 191).

Definition push (c : char) (r : result str) : result str :=
  match r with
  | Ok s => Ok (c :: s)
  | Err e => Err e
  end.

Definition invalid_utf8 : result str :=
  Err "'utf-8' codec can't decode bytes"%string.

Fixpoint utf8_decode (bs : list N) : result str :=
  match bs with
  | [] => Ok []
  | b0 :: r0 =>
      if b0 <? 128 then push b0 (utf8_decode r0)
      else if (194 <=? b0) && (b0 <=? 223) then
        match r0 with
        | b1 :: r1 =>
            if continuation b1
            then push ((b0 - 192) * 64 + (b1 - 128)) (utf8_decode r1)
            else invalid_utf8
        | _ => invalid_utf8
        end
      else if (224 <=? b0) && (b0 <=? 239) then
        match r0 with
        | b1 :: b2 :: r2 =>
            let cp := (b0 - 224) * 4096 + (b1 - 128) * 64 + (b2 - 128) in
            if continuation b1 && continuation b2 && (2048 <=? cp)
               && negb ((55296 <=? cp) && (cp <=? 57343))
            then push cp (utf8_decode r2)
            else invalid_utf8
        | _ => invalid_utf8
        end
      else if (240 <=? b0) && (b0 <=? 244) then
        match r0 with
        | b1 :: b2 :: b3 :: r3 =>
            let cp := (b0 - 240) * 262144 + (b1 - 128) * 4096
                      + (b2 - 128) * 64 + (b3 - 128) in
            if continuation b1 && continuation b2 && continuation b3
               && (65536 <=? cp) && (cp <=? 1114111)
            then push cp (utf8_decode r3)
            else invalid_utf8
        | _ => invalid_utf8
        end
      else invalid_utf8
  end.

Definition decode (b : bytes) : result str :=
  utf8_decode (map Byte.to_N b).

Definition read_csv (src : csv_source) (d : char) : result DataFrame :=
  match src with
  | StringIO s => read_csv_text s d
  | Buffer f =>
      match decode (getvalue f) with
      | Ok s => read_csv_text s d
      | Err e => Err e
      end
  end.

Definition not_modelled (f : UploadedFile) : result DataFrame :=
  Err "format not covered by the text model"%string.

(** Modelled from the spec: the bundled example dataset ([px.data.tips()],
    data of a library that is not part of src/): "a restaurant-tipping
    dataset with numeric columns such as bill amount, tip, and party size,
    and categorical columns such as day and smoker status". Only the first
    rows are written out. *)
Definition sample_tips : DataFrame :=
  mkDataFrame 3
    [ mkColumn (py "total_bill") Numeric [py "16.99"; py "10.34"; py "21.01"];
      mkColumn (py "tip") Numeric [py "1.01"; py "1.66"; py "3.50"];
      mkColumn (py "sex") Categorical [py "Female"; py "Male"; py "Male"];
      mkColumn (py "smoker") Categorical [py "No"; py "No"; py "No"];
      mkColumn (py "day") Categorical [py "Sun"; py "Sun"; py "Sun"];
      mkColumn (py "time") Categorical [py "Dinner"; py "Dinner"; py "Dinner"];
      mkColumn (py "size") Numeric [py "2"; py "3"; py "3"] ].

(** The collaborators of the text path: UTF-8 decoding and the reference
    parser. Workbooks, JSON and Parquet payloads are not modelled and are
    rejected. *)
#[export] Instance text_libs : Collaborators := {
  bytes_decode := decode;
  pd_read_csv := read_csv;
  pd_read_excel := not_modelled;
  pd_read_json := not_modelled;
  pd_read_parquet := not_modelled;
  px_data_tips := sample_tips
}.

End CsvModel.

(** ** The vocabulary of the specification *)

(** The final session state and the notices of a run. *)
Definition state_of {A} (r : outcome A * session_state * list notice)
  : session_state := snd (fst r).
Definition notices_of {A} (r : outcome A * session_state * list notice)
  : list notice := snd r.

(** A failure was reported to the user. *)
Definition reports_error {A} (r : outcome A * session_state * list notice)
  : Prop :=
  exists n, In n (notices_of r) /\ notice_level n = Error.

(** A notice includes the row count [k]. *)
Definition mentions_row_count (k : nat) (n : notice) : Prop :=
  In (FLen k) (notice_text n).

(** A notice interpolates some row count. *)
Definition has_row_count (n : notice) : bool :=
  existsb (fun x => match x with FLen _ => true | _ => false end)
          (notice_text n).

(** The dataset has a column of that name and type. *)
Definition has_column (d : DataFrame) (n : str) (t : dtype) : Prop :=
  exists c, In c (df_columns d) /\ col_name c = n /\ col_dtype c = t.

(** The formats the specification lists, by declared extension. *)
Inductive format : Type :=
| Delimited | Workbook | TabularJson | ColumnarBinary | Unsupported.

Definition format_table : list (str * format) :=
  [ (py "csv", Delimited); (py "tsv", Delimited); (py "txt", Delimited);
    (py "xlsx", Workbook); (py "json", TabularJson);
    (py "parquet", ColumnarBinary) ].

Definition declared_format (ext : str) : format :=
  match find (fun p => str_eqb ext (fst p)) format_table with
  | Some p => snd p
  | None => Unsupported
  end.

(** The extensions the upload widget of [main] accepts. *)
Definition UPLOAD_TYPES : list str :=
  [py "csv"; py "tsv"; py "txt"; py "xlsx"; py "json"; py "parquet"].

Section Specification.

Context {libs : Collaborators}.

Local Open Scope string_scope.

(** Delimited text from a file: decode, detect the delimiter, parse. *)
Definition ingest_delimited_file (f : UploadedFile) : result DataFrame :=
  match bytes_decode (getvalue f) with
  | Ok content => pd_read_csv (Buffer f) (detect_delimiter content)
  | Err e => Err e
  end.

(** The ingestor on an upload, as the specification words it: [None] is
    the unsupported-format condition. *)
Definition ingest_upload (f : UploadedFile) : option (result DataFrame) :=
  match declared_format (file_ext f) with
  | Delimited => Some (ingest_delimited_file f)
  | Workbook => Some (pd_read_excel f)
  | TabularJson => Some (pd_read_json f)
  | ColumnarBinary => Some (pd_read_parquet f)
  | Unsupported => None
  end.

(** The ingestor on pasted text: always delimited text. *)
Definition ingest_text (text : str) : result DataFrame :=
  pd_read_csv (StringIO text) (detect_delimiter text).

(** What the shell stores and shows for each result of an upload. *)
Definition report_upload (f : UploadedFile) (r : option (result DataFrame))
    (s : session_state) : outcome unit * session_state * list notice :=
  match r with
  | Some (Ok d) =>
      (Normal tt, mkSession (Some d) true,
       [mkNotice Success [Lit "Successfully loaded "; FStr (name f);
                          Lit " with "; FLen (len d); Lit " rows"]])
  | Some (Err e) =>
      (Normal tt, mkSession (df s) false,
       [mkNotice Error [Lit "Could not read file: "; FExn e]])
  | None =>
      (Normal tt, s,
       [mkNotice Error [Lit "Unsupported file format. Please upload CSV, TSV, TXT, Excel, JSON, or Parquet."]])
  end.

(** What the shell stores and shows for each result of pasted text. *)
Definition report_manual (r : result DataFrame) (s : session_state)
  : outcome unit * session_state * list notice :=
  match r with
  | Ok d =>
      (Normal tt, mkSession (Some d) true,
       [mkNotice Success [Lit "Successfully loaded manual data."]])
  | Err e =>
      (Normal tt, mkSession (df s) false,
       [mkNotice Error [Lit "Could not process manual data: "; FExn e]])
  end.

End Specification.

(** Comma-delimited text: the fields of a row joined by commas, the rows
    joined by line feeds, with or without a final line feed. *)
Definition csv_text (rows : list (list str)) (final_newline : bool) : str :=
  join LF (map (join COMMA) rows) ++ (if final_newline then [LF] else []).

(** A field that needs no quoting: no comma, line break or quote in it. *)
Definition plain_char (c : char) : bool :=
  negb ((c =? COMMA) || (c =? LF) || (c =? CR) || (c =? QUOTE)).

Definition plain_field (f : str) : Prop := forallb plain_char f = true.

(** The rows of a comma-delimited text, each of two plain fields or more. *)
Definition plain_rows (rows : list (list str)) : Prop :=
  Forall (fun r => (2 <= List.length r)%nat /\ Forall plain_field r) rows.

(** A text with the header [a,b,c] and two data rows of three fields. *)
Definition abc_text (f11 f12 f13 f21 f22 f23 : str) (final_newline : bool)
  : str :=
  csv_text [[py "a"; py "b"; py "c"]; [f11; f12; f13]; [f21; f22; f23]]
           final_newline.

(** A dataset with the columns [a], [b], [c] in that order and two rows. *)
Definition abc_dataset (d : DataFrame) : Prop :=
  column_names d = [py "a"; py "b"; py "c"]
  /\ List.length (df_columns d) = 3%nat
  /\ len d = 2%nat.

(** ** Sample inputs *)

Module Samples.

Import CsvModel.

(** A session right after the example data was loaded. *)
Definition loaded_session : session_state :=
  mkSession (Some sample_tips) true.

(** A fresh session, as [main] initialises it. *)
Definition fresh_session : session_state := mkSession None false.

(** An upload whose extension is not accepted. *)
Definition image_bmp : UploadedFile :=
  mkUploadedFile (py "image.bmp") [Byte.x42; Byte.x4d].

(** An upload named as delimited text whose bytes are not UTF-8. *)
Definition broken_csv : UploadedFile :=
  mkUploadedFile (py "data.CSV") [Byte.xff; Byte.xfe; Byte.x2c].

(** An upload of the text [a,b] / [1,2]. *)
Definition small_csv : UploadedFile :=
  mkUploadedFile (py "small.csv")
    [Byte.x61; Byte.x2c; Byte.x62; Byte.x0a; Byte.x31; Byte.x2c; Byte.x32].

(** An upload with the extension of a workbook. *)
Definition book_xlsx : UploadedFile :=
  mkUploadedFile (py "book.xlsx") [Byte.x50; Byte.x4b].

(** The text [a,b,c] / [1,2,3] / [4,5,6]. *)
Definition text_123 : str :=
  abc_text (py "1") (py "2") (py "3") (py "4") (py "5") (py "6") false.

(** The text [a,b,c] / [1,2,3] / [x y z w u v t,5,6]: six commas and six
    spaces. *)
Definition text_spaces : str :=
  abc_text (py "1") (py "2") (py "3") (py "x y z w u v t") (py "5") (py "6")
           false.

(** A pasted text of white space only: two spaces, a tab and a line feed. *)
Definition text_blank : str := [SPACE; SPACE; TAB; LF].

End Samples.

(** ** The plot configuration of [main] *)

Module PlotConfig.

(** The dtypes that [select_dtypes] counts as 'number'. *)
Definition is_number (t : dtype) : bool :=
  match t with
  | Numeric => true
  | Categorical => false
  end.

(** [df.select_dtypes(include='number').columns.tolist()] *)
Definition numeric_cols (d : DataFrame) : list str :=
  map col_name (filter (fun c => is_number (col_dtype c)) (df_columns d)).

(** [df.select_dtypes(exclude='number').columns.tolist()] *)
Definition categorical_cols (d : DataFrame) : list str :=
  map col_name
      (filter (fun c => negb (is_number (col_dtype c))) (df_columns d)).

(** [df.columns.tolist()] *)
Definition all_cols (d : DataFrame) : list str := column_names d.

(** [numeric_cols[:3]], the default of the pair plot. *)
Definition default_dimensions (d : DataFrame) : list str :=
  firstn 3 (numeric_cols d).

(** [["None"] + all_cols], the options of "Color by". *)
Definition color_options (d : DataFrame) : list str :=
  py "None" :: all_cols d.

(** A select box gives back the option the user picked; [index] is its
    position in the options. *)
Definition selectbox (options : list str) (index : nat) : option str :=
  nth_error options index.

(** [color_var = None if color_var == "None" else color_var] *)
Definition color_var (selected : option str) : option str :=
  match selected with
  | Some c => if str_eqb c (py "None") then None else Some c
  | None => None
  end.

End PlotConfig.

(** ** Further vocabulary *)

Definition outcome_of {A} (r : outcome A * session_state * list notice)
  : outcome A := fst (fst r).

(** The levels of the notices of a run, in order. *)
Definition levels_of {A} (r : outcome A * session_state * list notice)
  : list level := map notice_level (notices_of r).

(** The loaded flag is only set when a dataset is stored. *)
Definition session_ok (s : session_state) : Prop :=
  data_loaded s = true -> df s <> None.

(** One of the three characters the detector counts. *)
Definition is_candidate (c : char) : bool :=
  (c =? COMMA) || (c =? TAB) || (c =? SPACE).

Section MainSections.

Context {libs : Collaborators}.

(** The section of [main] under the upload widget. *)
Definition upload_section (f : option UploadedFile) : M unit :=
  match f with
  | Some f => load_uploaded_file f
  | None => ret tt
  end.

(** The section of [main] under the button "Use example data". *)
Definition example_section (clicked : bool) : M unit :=
  if clicked then load_example_data else ret tt.

(** The notice [main] shows when no data is loaded. *)
Definition no_data_notice : notice :=
  mkNotice Info [Lit "Please upload a file, enter data manually, or use the example dataset."].

End MainSections.

Module MoreSamples.

Import CsvModel.

(** An upload whose name is just [CSV], with the text [a,b] / [1,2]. *)
Definition bare_csv : UploadedFile :=
  mkUploadedFile (py "CSV")
    [Byte.x61; Byte.x2c; Byte.x62; Byte.x0a; Byte.x31; Byte.x2c; Byte.x32].

(** A dataset with a column named [None]. *)
Definition none_column : DataFrame :=
  mkDataFrame 1
    [ mkColumn (py "x") Numeric [py "1"];
      mkColumn (py "None") Categorical [py "a"] ].

End MoreSamples.

(** * Properties *)

(** ** Strings *)

Module PyStrFacts.

Lemma startswith_nil (s : str) : startswith s [] = true.
Proof. now destruct s. Qed.

(** Counting a one-character substring is counting that character. *)
Lemma count_single (c : char) (s : str) :
  count s [c] = occurrences c s.
Proof.
  unfold count.
  induction s as [|x s IH]; simpl; [reflexivity|].
  rewrite startswith_nil, andb_true_r, N.eqb_sym.
  destruct (x =? c); simpl; now rewrite IH.
Qed.

Lemma occurrences_absent (c : char) (s : str) :
  ~ In c s -> occurrences c s = 0%nat.
Proof.
  induction s as [|x s IH]; simpl; intros H; [reflexivity|].
  destruct (N.eqb_spec x c) as [E|E].
  - exfalso. apply H. now left.
  - apply IH. intros Hin. apply H. now right.
Qed.

Lemma lstrip_blank (s : str) :
  Forall (fun c => isspace c = true) s -> lstrip s = [].
Proof.
  induction 1 as [|c s Hc _ IH]; simpl; [reflexivity|].
  now rewrite Hc.
Qed.

(** [strip] leaves nothing of a text made of white space only. *)
Lemma strip_blank (s : str) :
  Forall (fun c => isspace c = true) s -> strip s = [].
Proof.
  intros H. unfold strip, rstrip. now rewrite (lstrip_blank s H).
Qed.

(** A string without the separator is one piece. *)
Lemma split_whole (sep : char) (s : str) :
  ~ In sep s -> split sep s = [s].
Proof.
  induction s as [|c s IH]; simpl; intros H; [reflexivity|].
  destruct (N.eqb_spec c sep) as [E|E].
  - exfalso. apply H. now left.
  - rewrite IH; [reflexivity|]. intros Hin. apply H. now right.
Qed.

(** The first separator ends the first piece. *)
Lemma split_app (sep : char) (x rest : str) :
  ~ In sep x -> split sep (x ++ sep :: rest) = x :: split sep rest.
Proof.
  induction x as [|c x IH]; simpl; intros H.
  - now rewrite N.eqb_refl.
  - destruct (N.eqb_spec c sep) as [E|E].
    + exfalso. apply H. now left.
    + rewrite IH; [reflexivity|]. intros Hin. apply H. now right.
Qed.

(** Splitting undoes joining when no piece holds the separator. *)
Lemma split_join (sep : char) (l : list str) :
  l <> [] -> Forall (fun x => ~ In sep x) l -> split sep (join sep l) = l.
Proof.
  induction l as [|x l IH]; intros Hne H; [congruence|].
  inversion H as [|? ? Hx Hl]; subst.
  destruct l as [|y l].
  - simpl. now apply split_whole.
  - change (join sep (x :: y :: l)) with (x ++ sep :: join sep (y :: l)).
    rewrite split_app by assumption.
    rewrite IH; [reflexivity|discriminate|assumption].
Qed.

End PyStrFacts.

Import PyStrFacts.

(** ** The delimiter detector *)

(** The detector in terms of the occurrences of the three characters. *)
Lemma detect_delimiter_occurrences (content : str) :
  detect_delimiter content =
  if (occurrences TAB content <? occurrences COMMA content)%nat
     && (occurrences SPACE content <? occurrences COMMA content)%nat
  then COMMA
  else if (occurrences SPACE content <? occurrences TAB content)%nat
  then TAB
  else SPACE.
Proof. unfold detect_delimiter. now rewrite !count_single. Qed.

(** C1. The detector answers the comma when the commas of the text
    outnumber both its tabs and its spaces; otherwise the tab when the tabs
    outnumber the spaces; otherwise the space. The numbers compared are the
    raw occurrences of each character in the whole text. *)
Theorem detect_delimiter_by_counts (content : str) :
  let commas := occurrences COMMA content in
  let tabs := occurrences TAB content in
  let spaces := occurrences SPACE content in
  ((commas > tabs)%nat /\ (commas > spaces)%nat ->
     detect_delimiter content = COMMA)
  /\ (~ ((commas > tabs)%nat /\ (commas > spaces)%nat) ->
      (tabs > spaces)%nat -> detect_delimiter content = TAB)
  /\ (~ ((commas > tabs)%nat /\ (commas > spaces)%nat) ->
      ~ (tabs > spaces)%nat -> detect_delimiter content = SPACE).
Proof.
  cbv zeta. rewrite detect_delimiter_occurrences.
  destruct (Nat.ltb_spec (occurrences TAB content) (occurrences COMMA content));
    destruct (Nat.ltb_spec (occurrences SPACE content)
                           (occurrences COMMA content));
    destruct (Nat.ltb_spec (occurrences SPACE content)
                           (occurrences TAB content));
    simpl; repeat split; intros; try reflexivity; exfalso; lia.
Qed.

(** C9. The detector always answers, and its answer is one of the comma,
    the tab and the space; on a text holding none of the three (the empty
    text among them) it answers the space. *)
Theorem detect_delimiter_range (content : str) :
  (exists c, detect_delimiter content = c /\ In c [COMMA; TAB; SPACE])
  /\ (~ In COMMA content -> ~ In TAB content -> ~ In SPACE content ->
      detect_delimiter content = SPACE).
Proof.
  split.
  - exists (detect_delimiter content). split; [reflexivity|].
    unfold detect_delimiter.
    destruct (_ && _); [simpl; auto|].
    destruct (_ <? _)%nat; simpl; auto.
  - intros Hc Ht Hs. rewrite detect_delimiter_occurrences.
    rewrite (occurrences_absent _ _ Hc), (occurrences_absent _ _ Ht),
            (occurrences_absent _ _ Hs).
    reflexivity.
Qed.

(** ** The ingestion functions as dispatch and report *)

Section IngestionFacts.

Context {libs : Collaborators}.

Ltac case_ext :=
  repeat match goal with
         | |- context [str_eqb ?a ?b] => destruct (str_eqb a b); simpl
         end.

Ltac case_result :=
  repeat match goal with
         | |- context [match ?r with Ok _ => _ | Err _ => _ end] =>
             destruct r; simpl
         end.

(** [load_uploaded_file] parses the file in the way its extension selects
    and reports the result. *)
Lemma load_uploaded_file_report (f : UploadedFile) (s : session_state) :
  load_uploaded_file f s = report_upload f (ingest_upload f) s.
Proof.
  unfold load_uploaded_file, ingest_upload, declared_format, format_table,
    ingest_delimited_file, report_upload, str_in, def, try_except, bind,
    call, set_df, set_data_loaded, st_success, st_error, emit, return_.
  generalize (file_ext f) as ext. intros ext. simpl.
  case_ext; case_result; reflexivity.
Qed.

(** [load_manual_data] parses the text as delimited text and reports the
    result. *)
Lemma load_manual_data_report (text : str) (s : session_state) :
  load_manual_data text s = report_manual (ingest_text text) s.
Proof.
  unfold load_manual_data, ingest_text, report_manual, def, try_except,
    bind, call, set_df, set_data_loaded, st_success, st_error, emit.
  simpl. case_result; reflexivity.
Qed.

(** [load_example_data] stores the bundled dataset and reports its size. *)
Lemma load_example_data_run (s : session_state) :
  load_example_data s =
  (Normal tt, mkSession (Some px_data_tips) true,
   [mkNotice Success [Lit "Loaded example dataset with ";
                      FLen (len px_data_tips); Lit " rows"]]).
Proof. reflexivity. Qed.

(** An extension outside the accepted ones has no format. *)
Lemma declared_format_unsupported (ext : str) :
  str_in ext UPLOAD_TYPES = false -> declared_format ext = Unsupported.
Proof.
  unfold str_in, UPLOAD_TYPES, declared_format, format_table. simpl.
  case_ext; intros H; try discriminate H; reflexivity.
Qed.

End IngestionFacts.

(** ** Claims on the ingestion functions *)

Import CsvModel Samples.

Lemma str_eqb_eq (a b : str) : str_eqb a b = true -> a = b.
Proof.
  unfold str_eqb. destruct (list_eq_dec N.eq_dec a b); [auto|discriminate].
Qed.

Lemma str_in_In (x : str) (l : list str) : str_in x l = true -> In x l.
Proof.
  unfold str_in. rewrite existsb_exists. intros [y [Hy E]].
  apply str_eqb_eq in E. now subst.
Qed.

(** C3. An upload whose extension is none of csv, tsv, txt, xlsx, json and
    parquet is refused with the unsupported-format message: no parser runs,
    no dataset is produced and the session (the stored dataset and the
    loaded flag) is left as it was. *)
Theorem unsupported_extension_rejected {libs : Collaborators}
    (f : UploadedFile) (s : session_state) :
  str_in (file_ext f) UPLOAD_TYPES = false ->
  ingest_upload f = None
  /\ load_uploaded_file f s =
     (Normal tt, s,
      [mkNotice Error [Lit "Unsupported file format. Please upload CSV, TSV, TXT, Excel, JSON, or Parquet."]]).
Proof.
  intros H.
  assert (E : ingest_upload f = None).
  { unfold ingest_upload. now rewrite (declared_format_unsupported _ H). }
  split; [exact E|].
  rewrite load_uploaded_file_report, E. reflexivity.
Qed.

Lemma unsupported_extension_rejected_bmp :
  str_in (file_ext image_bmp) UPLOAD_TYPES = false
  /\ ingest_upload image_bmp = None
  /\ load_uploaded_file image_bmp loaded_session =
     (Normal tt, loaded_session,
      [mkNotice Error [Lit "Unsupported file format. Please upload CSV, TSV, TXT, Excel, JSON, or Parquet."]]).
Proof.
  split; [reflexivity|].
  apply (unsupported_extension_rejected image_bmp loaded_session).
  reflexivity.
Defined.

(** C2, as stated, fails: after a successful load, an upload with an
    unsupported extension is reported as an error and the loaded flag is
    still set. *)
Lemma unsupported_upload_keeps_loaded_flag :
  data_loaded loaded_session = true
  /\ reports_error (load_uploaded_file image_bmp loaded_session)
  /\ data_loaded (state_of (load_uploaded_file image_bmp loaded_session))
     = true.
Proof.
  split; [reflexivity|]. split; [|reflexivity].
  eexists. split; [left; reflexivity|reflexivity].
Qed.

(** C2, amended. When decoding or parsing fails, for an upload of an
    accepted format or for pasted text, the failure is reported as an error
    and the loaded flag is cleared, whatever the session held before (a
    successful load included). An upload of an unsupported format is
    reported as an error and leaves the session, the flag included, as it
    was. *)
Theorem parse_failure_clears_loaded_flag {libs : Collaborators}
    (s : session_state) (e : exn) :
  (forall f, ingest_upload f = Some (Err e) ->
     reports_error (load_uploaded_file f s)
     /\ data_loaded (state_of (load_uploaded_file f s)) = false)
  /\ (forall text, ingest_text text = Err e ->
     reports_error (load_manual_data text s)
     /\ data_loaded (state_of (load_manual_data text s)) = false)
  /\ (forall f, ingest_upload f = None ->
     reports_error (load_uploaded_file f s)
     /\ state_of (load_uploaded_file f s) = s).
Proof.
  split; [|split].
  - intros f H. rewrite load_uploaded_file_report, H. simpl.
    split; [|reflexivity].
    eexists. split; [left; reflexivity|reflexivity].
  - intros text H. rewrite load_manual_data_report, H. simpl.
    split; [|reflexivity].
    eexists. split; [left; reflexivity|reflexivity].
  - intros f H. rewrite load_uploaded_file_report, H. simpl.
    split; [|reflexivity].
    eexists. split; [left; reflexivity|reflexivity].
Qed.

Lemma parse_failure_clears_loaded_flag_samples :
  data_loaded (state_of (load_uploaded_file broken_csv loaded_session))
  = false
  /\ data_loaded (state_of (load_manual_data text_spaces loaded_session))
     = false.
Proof.
  split.
  - apply (proj1 (parse_failure_clears_loaded_flag loaded_session
                    "'utf-8' codec can't decode bytes"%string) broken_csv).
    reflexivity.
  - apply (proj1 (proj2 (parse_failure_clears_loaded_flag loaded_session
                    "Error tokenizing data. C error: too many fields in a line"%string))
                 text_spaces).
    reflexivity.
Defined.

(** C10. When decoding or parsing fails, for an upload or for pasted
    text, the stored dataset is the one stored before and the loaded flag is
    false: the error branch changes nothing but the flag. *)
Theorem parse_failure_keeps_dataset {libs : Collaborators}
    (s : session_state) (e : exn) :
  (forall f, ingest_upload f = Some (Err e) ->
     state_of (load_uploaded_file f s) = mkSession (df s) false)
  /\ (forall text, ingest_text text = Err e ->
     state_of (load_manual_data text s) = mkSession (df s) false).
Proof.
  split.
  - intros f H. now rewrite load_uploaded_file_report, H.
  - intros text H. now rewrite load_manual_data_report, H.
Qed.

Lemma parse_failure_keeps_dataset_samples :
  state_of (load_uploaded_file broken_csv loaded_session)
  = mkSession (Some sample_tips) false
  /\ state_of (load_manual_data text_spaces loaded_session)
     = mkSession (Some sample_tips) false.
Proof.
  split.
  - apply (proj1 (parse_failure_keeps_dataset loaded_session
                    "'utf-8' codec can't decode bytes"%string) broken_csv).
    reflexivity.
  - apply (proj2 (parse_failure_keeps_dataset loaded_session
                    "Error tokenizing data. C error: too many fields in a line"%string)
                 text_spaces).
    reflexivity.
Defined.

(** A successful upload reports the number of rows of the dataset. *)
Lemma upload_success_reports_row_count {libs : Collaborators}
    (f : UploadedFile) (s : session_state) (d : DataFrame) :
  ingest_upload f = Some (Ok d) ->
  exists n, notices_of (load_uploaded_file f s) = [n]
            /\ notice_level n = Success /\ mentions_row_count (len d) n.
Proof.
  intros H. rewrite load_uploaded_file_report, H. simpl.
  eexists. split; [reflexivity|]. split; [reflexivity|].
  unfold mentions_row_count. simpl. auto.
Qed.

(** Loading the example data reports the number of rows of the dataset. *)
Lemma example_success_reports_row_count {libs : Collaborators}
    (s : session_state) :
  exists n, notices_of (load_example_data s) = [n]
            /\ notice_level n = Success
            /\ mentions_row_count (len px_data_tips) n.
Proof.
  rewrite load_example_data_run. simpl.
  eexists. split; [reflexivity|]. split; [reflexivity|].
  unfold mentions_row_count. simpl. auto.
Qed.

(** Whatever the text, no notice of [load_manual_data] holds a row count. *)
Lemma manual_notices_without_row_count {libs : Collaborators}
    (text : str) (s : session_state) :
  existsb has_row_count (notices_of (load_manual_data text s)) = false.
Proof.
  rewrite load_manual_data_report. unfold report_manual.
  destruct (ingest_text text); reflexivity.
Qed.

(** C4, on pasted text. Loading the text [a,b,c] / [1,2,3] / [4,5,6]
    succeeds with a dataset of two rows, and the only notice is the fixed
    sentence "Successfully loaded manual data.", which holds no row
    count. *)
Theorem manual_success_omits_row_count :
  exists d,
    load_manual_data (libs := text_libs) text_123 fresh_session =
    (Normal tt, mkSession (Some d) true,
     [mkNotice Success [Lit "Successfully loaded manual data."]])
    /\ len d = 2%nat
    /\ existsb has_row_count
         (notices_of (load_manual_data (libs := text_libs)
                        text_123 fresh_session)) = false.
Proof.
  eexists. split; [reflexivity|]. split; reflexivity.
Qed.

(** C6, amended. With a pasted text that is empty or made of white space
    only, a click on "Load manual data" does not reach the parser: the
    user is told to enter some data by a warning notice, not by an error,
    and the session is left as it was, so the loaded flag is not set. In a
    fresh session with nothing else to load, the page then stops with the
    loaded flag false. *)
Theorem blank_manual_text_not_loaded {libs : Collaborators}
    (text : str) (s : session_state) :
  Forall (fun c => isspace c = true) text ->
  manual_section true text s =
    (Normal tt, s,
     [mkNotice Warning [Lit "Please enter some data before clicking the button."]])
  /\ run_main (mkInputs None text true false) None =
    (Returned, mkSession None false,
     [mkNotice Warning [Lit "Please enter some data before clicking the button."];
      mkNotice Info [Lit "Please upload a file, enter data manually, or use the example dataset."]]).
Proof.
  intros H.
  unfold run_main, main, manual_section. simpl.
  rewrite (strip_blank text H). split; reflexivity.
Qed.

Lemma blank_manual_text_not_loaded_sample :
  Forall (fun c => isspace c = true) text_blank
  /\ manual_section true text_blank loaded_session =
    (Normal tt, loaded_session,
     [mkNotice Warning [Lit "Please enter some data before clicking the button."]]).
Proof.
  assert (H : Forall (fun c => isspace c = true) text_blank).
  { repeat constructor. }
  split; [exact H|].
  exact (proj1 (blank_manual_text_not_loaded text_blank loaded_session H)).
Defined.

(** C6, as stated, fails: for the pasted text made of two spaces, a tab
    and a line feed, the click reports no error; the only notice is a
    warning. *)
Lemma blank_manual_text_reports_no_error :
  Forall (fun c => isspace c = true) text_blank
  /\ levels_of (manual_section (libs := text_libs) true text_blank
                               fresh_session) = [Warning]
  /\ ~ reports_error (manual_section (libs := text_libs) true text_blank
                                     fresh_session).
Proof.
  split; [repeat constructor|]. split; [reflexivity|].
  intros [n [Hin Hlevel]]. simpl in Hin.
  destruct Hin as [E|[]]. subst n. discriminate Hlevel.
Qed.

(** C7. [load_uploaded_file] dispatches on the declared extension: csv,
    tsv and txt are decoded as text, run through the delimiter detector and
    handed to the delimited-text parser; xlsx goes to the workbook parser,
    json to the JSON parser and parquet to the Parquet parser; in each case
    the result is reported in the same way. Pasted text is always handed to
    the delimited-text parser with the delimiter the detector finds in
    it. The code agrees with the dispatch table of the specification. *)
Theorem ingestion_dispatches_on_format {libs : Collaborators}
    (f : UploadedFile) (text : str) (s : session_state) :
  (str_in (file_ext f) [py "csv"; py "tsv"; py "txt"] = true ->
     load_uploaded_file f s =
     report_upload f
       (Some match bytes_decode (getvalue f) with
             | Ok content =>
                 pd_read_csv (Buffer f) (detect_delimiter content)
             | Err e => Err e
             end) s)
  /\ (file_ext f = py "xlsx" ->
      load_uploaded_file f s = report_upload f (Some (pd_read_excel f)) s)
  /\ (file_ext f = py "json" ->
      load_uploaded_file f s = report_upload f (Some (pd_read_json f)) s)
  /\ (file_ext f = py "parquet" ->
      load_uploaded_file f s = report_upload f (Some (pd_read_parquet f)) s)
  /\ load_manual_data text s =
     report_manual (pd_read_csv (StringIO text) (detect_delimiter text)) s
  /\ load_uploaded_file f s = report_upload f (ingest_upload f) s.
Proof.
  repeat split.
  - intros H. apply str_in_In in H. rewrite load_uploaded_file_report.
    unfold ingest_upload.
    destruct H as [E|[E|[E|[]]]]; rewrite <- E; reflexivity.
  - intros E. rewrite load_uploaded_file_report. unfold ingest_upload.
    rewrite E. reflexivity.
  - intros E. rewrite load_uploaded_file_report. unfold ingest_upload.
    rewrite E. reflexivity.
  - intros E. rewrite load_uploaded_file_report. unfold ingest_upload.
    rewrite E. reflexivity.
  - apply load_manual_data_report.
  - apply load_uploaded_file_report.
Qed.

Lemma ingestion_dispatches_on_format_samples :
  load_uploaded_file small_csv fresh_session =
    report_upload small_csv
      (Some (read_csv (Buffer small_csv) COMMA)) fresh_session
  /\ load_uploaded_file book_xlsx fresh_session =
    report_upload book_xlsx (Some (pd_read_excel book_xlsx)) fresh_session.
Proof.
  pose proof (ingestion_dispatches_on_format small_csv text_123 fresh_session)
    as [Hcsv _].
  pose proof (ingestion_dispatches_on_format book_xlsx text_123 fresh_session)
    as [_ [Hxlsx _]].
  split.
  - rewrite (Hcsv eq_refl). reflexivity.
  - exact (Hxlsx eq_refl).
Defined.

(** C8. [load_example_data] takes nothing but the session, always ends
    normally, stores the bundled dataset and sets the loaded flag. The
    bundled dataset being non-empty with a numeric column "tip" and a
    categorical column "day", so is the dataset stored. *)
Theorem example_data_loaded {libs : Collaborators} (s : session_state) :
  (0 < len px_data_tips)%nat ->
  has_column px_data_tips (py "tip") Numeric ->
  has_column px_data_tips (py "day") Categorical ->
  exists d,
    load_example_data s =
      (Normal tt, mkSession (Some d) true,
       [mkNotice Success [Lit "Loaded example dataset with ";
                          FLen (len d); Lit " rows"]])
    /\ (0 < len d)%nat
    /\ has_column d (py "tip") Numeric
    /\ has_column d (py "day") Categorical.
Proof.
  intros Hlen Htip Hday. exists px_data_tips.
  split; [apply load_example_data_run|]. auto.
Qed.

Lemma example_data_loaded_sample :
  exists d,
    load_example_data fresh_session =
      (Normal tt, mkSession (Some d) true,
       [mkNotice Success [Lit "Loaded example dataset with ";
                          FLen (len d); Lit " rows"]])
    /\ (0 < len d)%nat
    /\ has_column d (py "tip") Numeric
    /\ has_column d (py "day") Categorical.
Proof.
  apply (example_data_loaded (libs := text_libs) fresh_session).
  - unfold len. simpl. lia.
  - eexists. split; [right; left; reflexivity|]. split; reflexivity.
  - eexists. split; [do 4 right; left; reflexivity|]. split; reflexivity.
Defined.

Lemma detect_delimiter_by_counts_samples :
  detect_delimiter (py "a,b,c") = COMMA
  /\ detect_delimiter [97; TAB; 98; TAB; 99; SPACE; 100] = TAB
  /\ detect_delimiter (py "a b,c d") = SPACE.
Proof.
  split; [|split].
  - apply (proj1 (detect_delimiter_by_counts (py "a,b,c"))).
    simpl. lia.
  - apply (proj1 (proj2 (detect_delimiter_by_counts
                           [97; TAB; 98; TAB; 99; SPACE; 100]))).
    + simpl. lia.
    + simpl. lia.
  - apply (proj2 (proj2 (detect_delimiter_by_counts (py "a b,c d")))).
    + simpl. lia.
    + simpl. lia.
Defined.

Lemma detect_delimiter_range_samples :
  detect_delimiter [] = SPACE /\ detect_delimiter (py "abc") = SPACE.
Proof.
  split.
  - apply (proj2 (detect_delimiter_range [])); simpl; tauto.
  - apply (proj2 (detect_delimiter_range (py "abc"))); simpl;
      intros H; repeat destruct H as [H|H]; try discriminate H; exact H.
Defined.

(** ** The reference parser on comma-delimited text *)

Module CsvFacts.

Lemma plain_field_spec (f : str) :
  plain_field f -> ~ In COMMA f /\ ~ In LF f.
Proof.
  unfold plain_field. rewrite forallb_forall. intros H.
  split; intros Hin; apply H in Hin; discriminate Hin.
Qed.

(** A character absent from the pieces and other than the separator is
    absent from their join. *)
Lemma join_without (c sep : char) (l : list str) :
  c <> sep -> Forall (fun x => ~ In c x) l -> ~ In c (join sep l).
Proof.
  intros Hsep. induction l as [|x l IH]; intros H; [simpl; tauto|].
  inversion H as [|? ? Hx Hl]; subst.
  destruct l as [|y l]; [exact Hx|].
  change (join sep (x :: y :: l)) with (x ++ sep :: join sep (y :: l)).
  rewrite in_app_iff. simpl. intros [Hin|[Hin|Hin]].
  - now apply Hx.
  - now apply Hsep.
  - now apply (IH Hl).
Qed.

(** The join of two pieces or more holds the separator. *)
Lemma join_has_separator (sep : char) (l : list str) :
  (2 <= List.length l)%nat -> In sep (join sep l).
Proof.
  destruct l as [|x [|y l]]; simpl; try lia. intros _.
  rewrite in_app_iff. right. now left.
Qed.

(** A line that holds the delimiter is not skipped. *)
Lemma blank_line_delimiter (d : char) (l : str) :
  In d l -> blank_line d l = false.
Proof.
  intros H. unfold blank_line.
  destruct (forallb (is_blank_char d) l) eqn:E; [|reflexivity].
  rewrite forallb_forall in E. specialize (E d H).
  unfold is_blank_char in E. rewrite N.eqb_refl, andb_false_r in E.
  discriminate E.
Qed.

Lemma join_final_separator (sep : char) (l : list str) :
  l <> [] -> join sep l ++ [sep] = join sep (l ++ [[]]).
Proof.
  induction l as [|x l IH]; intros Hne; [congruence|].
  destruct l as [|y l]; [reflexivity|].
  change (join sep (x :: y :: l)) with (x ++ sep :: join sep (y :: l)).
  change (join sep ((x :: y :: l) ++ [[]]))
    with (x ++ sep :: join sep ((y :: l) ++ [[]])).
  rewrite <- app_assoc, <- app_comm_cons, IH by discriminate. reflexivity.
Qed.

Lemma filter_all {A} (p : A -> bool) (l : list A) :
  Forall (fun x => p x = true) l -> filter p l = l.
Proof.
  induction 1 as [|x l Hx _ IH]; simpl; [reflexivity|].
  now rewrite Hx, IH.
Qed.

(** The lines the parser keeps are the rows of the text. *)
Lemma lines_of_csv_text (rows : list (list str)) (final_newline : bool) :
  rows <> [] -> plain_rows rows ->
  filter (fun l => negb (blank_line COMMA l))
         (split LF (csv_text rows final_newline))
  = map (join COMMA) rows.
Proof.
  intros Hne Hrows. unfold csv_text.
  assert (Hlines : Forall (fun l => ~ In LF l) (map (join COMMA) rows)).
  { rewrite Forall_map. eapply Forall_impl; [|exact Hrows].
    intros r [_ Hr]. apply join_without; [discriminate|].
    eapply Forall_impl; [|exact Hr].
    intros f Hf. now apply plain_field_spec. }
  assert (Hkeep : Forall (fun l => negb (blank_line COMMA l) = true)
                         (map (join COMMA) rows)).
  { rewrite Forall_map. eapply Forall_impl; [|exact Hrows].
    intros r [Hlen _].
    now rewrite (blank_line_delimiter _ _ (join_has_separator COMMA r Hlen)). }
  assert (Hne' : map (join COMMA) rows <> []).
  { destruct rows; [congruence|discriminate]. }
  destruct final_newline.
  - rewrite join_final_separator by exact Hne'.
    rewrite split_join.
    + rewrite filter_app. simpl. rewrite app_nil_r. now apply filter_all.
    + destruct (map (join COMMA) rows); discriminate.
    + apply Forall_app. split; [exact Hlines|]. constructor; [|constructor].
      simpl. tauto.
  - rewrite app_nil_r, split_join by assumption. now apply filter_all.
Qed.

(** Cutting a row at the commas gives its fields back. *)
Lemma fields_of_row (r : list str) :
  r <> [] -> Forall plain_field r -> split COMMA (join COMMA r) = r.
Proof.
  intros Hne Hr. apply split_join; [exact Hne|].
  eapply Forall_impl; [|exact Hr]. intros f Hf. now apply plain_field_spec.
Qed.

Lemma columns_from_names (i : nat) (names : list str)
    (body : list (list str)) :
  map col_name (columns_from i names body) = names.
Proof.
  revert i. induction names as [|n ns IH]; intros i; simpl;
    [reflexivity|]. now rewrite IH.
Qed.

(** The column names of a parsed text are the fields of its first line
    that is not blank. *)
Lemma read_csv_text_header (text : str) (d : char) (data : DataFrame) :
  read_csv_text text d = Ok data ->
  exists h rest,
    filter (fun l => negb (blank_line d l)) (split LF text) = h :: rest
    /\ column_names data = split d h
    /\ len data = List.length rest.
Proof.
  unfold read_csv_text.
  destruct (filter _ (split LF text)) as [|h rest]; [discriminate|].
  destruct (existsb _ _); [discriminate|].
  intros E. injection E as <-. exists h, rest.
  split; [reflexivity|]. unfold column_names, len. simpl.
  now rewrite columns_from_names, length_map.
Qed.

End CsvFacts.

Import CsvFacts.

(** ** Pasted text with the header a,b,c *)

(** C5, as stated, fails: the text [a,b,c] / [1,2,3] / [x y z w u v t,5,6]
    is comma-delimited text with the header a,b,c and two data rows of
    plain fields, but it holds as many spaces as commas, so the detector
    answers the space, the parse fails and no dataset is stored. *)
Lemma abc_text_with_spaces_not_loaded :
  Forall plain_field
    [py "1"; py "2"; py "3"; py "x y z w u v t"; py "5"; py "6"]
  /\ detect_delimiter text_spaces = SPACE
  /\ load_manual_data (libs := text_libs) text_spaces fresh_session =
     (Normal tt, mkSession None false,
      [mkNotice Error
         [Lit "Could not process manual data: ";
          FExn "Error tokenizing data. C error: too many fields in a line"%string]])
  /\ ~ (exists d,
          df (state_of (load_manual_data text_spaces fresh_session)) = Some d
          /\ abc_dataset d).
Proof.
  split; [repeat constructor|].
  split; [reflexivity|].
  split; [reflexivity|].
  intros [d [H _]]. discriminate H.
Qed.

(** C5, amended. A comma-delimited text whose first line is the header
    a,b,c, followed by two data rows of three fields each, the fields
    holding no comma, line break or quote, and whose commas outnumber both
    its tabs and its spaces, is loaded as a dataset with exactly the three
    columns a, b, c in that order and two rows; the loaded flag is set. *)
Theorem abc_text_loaded (f11 f12 f13 f21 f22 f23 : str)
    (final_newline : bool) (s : session_state) :
  let text := abc_text f11 f12 f13 f21 f22 f23 final_newline in
  Forall plain_field [f11; f12; f13; f21; f22; f23] ->
  (occurrences COMMA text > occurrences TAB text)%nat ->
  (occurrences COMMA text > occurrences SPACE text)%nat ->
  exists d,
    load_manual_data (libs := text_libs) text s =
      (Normal tt, mkSession (Some d) true,
       [mkNotice Success [Lit "Successfully loaded manual data."]])
    /\ abc_dataset d.
Proof.
  intros text Hplain Htab Hspace.
  assert (Hd : detect_delimiter text = COMMA).
  { rewrite detect_delimiter_occurrences.
    unfold gt in Htab, Hspace.
    apply Nat.ltb_lt in Htab. apply Nat.ltb_lt in Hspace.
    rewrite Htab. rewrite Hspace. reflexivity. }
  assert (Hrows : plain_rows [[py "a"; py "b"; py "c"];
                              [f11; f12; f13]; [f21; f22; f23]]).
  { inversion Hplain as [|? ? H11 H1]; subst.
    inversion H1 as [|? ? H12 H2]; subst.
    inversion H2 as [|? ? H13 H3]; subst.
    inversion H3 as [|? ? H21 H4]; subst.
    inversion H4 as [|? ? H22 H5]; subst.
    inversion H5 as [|? ? H23 _]; subst.
    repeat constructor; simpl; auto. }
  assert (Hlines := fun Hne => lines_of_csv_text _ final_newline Hne Hrows).
  specialize (Hlines ltac:(discriminate)).
  inversion Hrows as [|? ? _ Hrows1]; subst.
  inversion Hrows1 as [|? ? [_ Hr1] Hrows2]; subst.
  inversion Hrows2 as [|? ? [_ Hr2] _]; subst.
  rewrite load_manual_data_report.
  unfold ingest_text. rewrite Hd.
  change (pd_read_csv (StringIO text) COMMA) with (read_csv_text text COMMA).
  unfold read_csv_text, text, abc_text. rewrite Hlines.
  cbn [map hd tl List.length].
  rewrite (fields_of_row [f11; f12; f13]) by (discriminate || assumption).
  rewrite (fields_of_row [f21; f22; f23]) by (discriminate || assumption).
  eexists. split; [reflexivity|].
  repeat split.
Qed.

Lemma abc_text_loaded_sample :
  exists d,
    load_manual_data text_123 fresh_session =
      (Normal tt, mkSession (Some d) true,
       [mkNotice Success [Lit "Successfully loaded manual data."]])
    /\ abc_dataset d.
Proof.
  apply (abc_text_loaded (py "1") (py "2") (py "3") (py "4") (py "5")
           (py "6") false fresh_session).
  - repeat constructor.
  - simpl. lia.
  - simpl. lia.
Defined.

(** * Further properties of the code *)

(** ** The delimiter detector *)

Module DetectorFacts.

Lemma occurrences_app (c : char) (s t : str) :
  occurrences c (s ++ t) = (occurrences c s + occurrences c t)%nat.
Proof.
  induction s as [|x s IH]; simpl; [reflexivity|].
  destruct (x =? c); simpl; now rewrite IH.
Qed.

Lemma occurrences_In (c : char) (s : str) :
  (0 < occurrences c s)%nat -> In c s.
Proof.
  intros H. destruct (in_dec N.eq_dec c s) as [Hin|Hout]; [exact Hin|].
  rewrite (occurrences_absent c s Hout) in H. lia.
Qed.

Lemma occurrences_perm (c : char) (s t : str) :
  Permutation s t -> occurrences c s = occurrences c t.
Proof.
  induction 1 as [|x s t _ IH|x y s|s t u _ IH1 _ IH2]; simpl.
  - reflexivity.
  - now rewrite IH.
  - destruct (x =? c), (y =? c); reflexivity.
  - now rewrite IH1.
Qed.

Lemma occurrences_filter (p : char -> bool) (c : char) (s : str) :
  p c = true -> occurrences c (filter p s) = occurrences c s.
Proof.
  intros Hp. induction s as [|x s IH]; simpl; [reflexivity|].
  destruct (N.eqb_spec x c) as [E|E].
  - subst x. rewrite Hp. simpl. now rewrite N.eqb_refl, IH.
  - destruct (p x); simpl; [|exact IH].
    destruct (N.eqb_spec x c) as [E'|_]; [contradiction|exact IH].
Qed.

(** The answer is a function of the three counts. *)
Lemma detect_delimiter_same_counts (s t : str) :
  occurrences COMMA s = occurrences COMMA t ->
  occurrences TAB s = occurrences TAB t ->
  occurrences SPACE s = occurrences SPACE t ->
  detect_delimiter s = detect_delimiter t.
Proof.
  intros Hc Ht Hs. rewrite !detect_delimiter_occurrences.
  now rewrite Hc, Ht, Hs.
Qed.

End DetectorFacts.

Import DetectorFacts.

(** When the detector answers the comma, the text holds a comma; when it
    answers the tab, the text holds a tab. Only the space can be answered
    for a text that does not hold it. *)
Theorem detected_delimiter_occurs (content : str) :
  (detect_delimiter content = COMMA -> In COMMA content)
  /\ (detect_delimiter content = TAB -> In TAB content).
Proof.
  rewrite detect_delimiter_occurrences.
  destruct (Nat.ltb_spec (occurrences TAB content) (occurrences COMMA content));
    destruct (Nat.ltb_spec (occurrences SPACE content)
                           (occurrences COMMA content));
    destruct (Nat.ltb_spec (occurrences SPACE content)
                           (occurrences TAB content));
    simpl; split; intros E; try discriminate E;
    apply occurrences_In; lia.
Qed.

Lemma detected_delimiter_occurs_sample :
  In COMMA (py "a,b") /\ In TAB [97; TAB; 98].
Proof.
  split.
  - apply (proj1 (detected_delimiter_occurs (py "a,b"))). reflexivity.
  - apply (proj2 (detected_delimiter_occurs [97; TAB; 98])). reflexivity.
Defined.

(** The detector looks at no structure: any rearrangement of the
    characters of a text (its lines or fields in another order, say) gets
    the same answer. *)
Theorem detect_delimiter_rearranged (s t : str) :
  Permutation s t -> detect_delimiter s = detect_delimiter t.
Proof.
  intros H. apply detect_delimiter_same_counts; now apply occurrences_perm.
Qed.

Lemma detect_delimiter_rearranged_sample :
  detect_delimiter (py "a b" ++ py "c,d") = detect_delimiter (py "c,d" ++ py "a b").
Proof.
  apply (detect_delimiter_rearranged (py "a b" ++ py "c,d")
           (py "c,d" ++ py "a b")).
  apply Permutation_app_comm.
Defined.

(** Only commas, tabs and spaces count: deleting every other character of
    the text leaves the answer unchanged. *)
Theorem detect_delimiter_candidates_only (content : str) :
  detect_delimiter (filter is_candidate content) = detect_delimiter content.
Proof.
  apply detect_delimiter_same_counts; now apply occurrences_filter.
Qed.

(** Ties are never settled for the earlier candidate: with as many commas
    as tabs, or as many commas as spaces, the answer is not the comma; with
    as many tabs as spaces, the answer is not the tab. *)
Theorem detect_delimiter_ties (content : str) :
  (occurrences COMMA content = occurrences TAB content
   \/ occurrences COMMA content = occurrences SPACE content ->
   detect_delimiter content <> COMMA)
  /\ (occurrences TAB content = occurrences SPACE content ->
      detect_delimiter content <> TAB).
Proof.
  rewrite detect_delimiter_occurrences.
  destruct (Nat.ltb_spec (occurrences TAB content) (occurrences COMMA content));
    destruct (Nat.ltb_spec (occurrences SPACE content)
                           (occurrences COMMA content));
    destruct (Nat.ltb_spec (occurrences SPACE content)
                           (occurrences TAB content));
    simpl; split; intros E; try discriminate; exfalso; lia.
Qed.

Lemma detect_delimiter_ties_sample :
  detect_delimiter (py "a,b c,d e") <> COMMA
  /\ detect_delimiter [97; TAB; 98; SPACE; 99] <> TAB.
Proof.
  split.
  - apply (proj1 (detect_delimiter_ties (py "a,b c,d e"))).
    right. reflexivity.
  - apply (proj2 (detect_delimiter_ties [97; TAB; 98; SPACE; 99])).
    reflexivity.
Defined.

(** Two texts with the same answer keep it when put one after the
    other. *)
Theorem detect_delimiter_concat (s t : str) :
  detect_delimiter s = detect_delimiter t ->
  detect_delimiter (s ++ t) = detect_delimiter s.
Proof.
  rewrite !detect_delimiter_occurrences, !occurrences_app.
  destruct (Nat.ltb_spec (occurrences TAB s) (occurrences COMMA s));
    destruct (Nat.ltb_spec (occurrences SPACE s) (occurrences COMMA s));
    destruct (Nat.ltb_spec (occurrences SPACE s) (occurrences TAB s));
    destruct (Nat.ltb_spec (occurrences TAB t) (occurrences COMMA t));
    destruct (Nat.ltb_spec (occurrences SPACE t) (occurrences COMMA t));
    destruct (Nat.ltb_spec (occurrences SPACE t) (occurrences TAB t));
    simpl; intros E; try discriminate E;
    repeat match goal with
           | |- context [(?a <? ?b)%nat] =>
               destruct (Nat.ltb_spec a b); simpl; try lia
           end; reflexivity.
Qed.

Lemma detect_delimiter_concat_sample :
  detect_delimiter (py "a,b" ++ py "c d,e,f") = COMMA.
Proof.
  apply (detect_delimiter_concat (py "a,b") (py "c d,e,f")). reflexivity.
Defined.

(** ** The extension of an upload *)

Module ExtensionFacts.

Lemma split_length (sep : char) (s : str) :
  List.length (split sep s) = S (occurrences sep s).
Proof.
  induction s as [|c s IH]; simpl; [reflexivity|].
  destruct (c =? sep); simpl; [now rewrite IH|].
  destruct (split sep s) as [|w ws]; simpl in *; [discriminate IH|exact IH].
Qed.

Lemma last_item_cons (x : str) (l : list str) :
  l <> [] -> last_item (x :: l) = last_item l.
Proof. destruct l; [congruence|reflexivity]. Qed.

(** What precedes a separator does not change the last piece. *)
Lemma last_item_split_app (sep : char) (base rest : str) :
  last_item (split sep (base ++ sep :: rest)) = last_item (split sep rest).
Proof.
  induction base as [|c base IH]; simpl.
  - rewrite N.eqb_refl. apply last_item_cons.
    intros E. pose proof (split_length sep rest) as L.
    rewrite E in L. discriminate L.
  - pose proof (split_length sep (base ++ sep :: rest)) as L.
    rewrite occurrences_app in L. simpl in L. rewrite N.eqb_refl in L.
    destruct (c =? sep).
    + rewrite last_item_cons; [exact IH|].
      intros E. rewrite E in L. discriminate L.
    + destruct (split sep (base ++ sep :: rest)) as [|w [|w' ws]];
        simpl in L; try lia.
      exact IH.
Qed.

Lemma lower_char_idempotent (c : char) :
  lower_char (lower_char c) = lower_char c.
Proof.
  unfold lower_char.
  destruct (N.leb_spec 65 c); destruct (N.leb_spec c 90); simpl.
  - destruct (N.leb_spec 65 (c + 32)); destruct (N.leb_spec (c + 32) 90);
      simpl; try lia.
    destruct (N.eqb_spec (c + 32) 8490); [lia|reflexivity].
  - destruct (N.eqb_spec c 8490) as [E|E]; [reflexivity|].
    rewrite <- N.leb_le in H. rewrite H.
    rewrite <- N.leb_gt in H0. rewrite H0. simpl.
    destruct (N.eqb_spec c 8490); [contradiction|reflexivity].
  - destruct (N.eqb_spec c 8490) as [E|E]; [reflexivity|].
    rewrite <- N.leb_gt in H. rewrite H. simpl.
    destruct (N.eqb_spec c 8490); [contradiction|reflexivity].
  - destruct (N.eqb_spec c 8490) as [E|E]; [reflexivity|].
    rewrite <- N.leb_gt in H. rewrite H. simpl.
    destruct (N.eqb_spec c 8490); [contradiction|reflexivity].
Qed.

Lemma lower_idempotent (s : str) : lower (lower s) = lower s.
Proof.
  unfold lower. rewrite map_map. apply map_ext, lower_char_idempotent.
Qed.

(** Lowering neither makes nor removes a dot. *)
Lemma lower_char_dot (c : char) : (lower_char c =? DOT) = (c =? DOT).
Proof.
  unfold lower_char, DOT.
  destruct (N.leb_spec 65 c); destruct (N.leb_spec c 90); simpl;
    try (destruct (N.eqb_spec c 8490) as [E|E]; [subst c; reflexivity|]);
    try reflexivity.
  destruct (N.eqb_spec (c + 32) 46); destruct (N.eqb_spec c 46);
    try reflexivity; lia.
Qed.

Lemma split_lower (s : str) :
  split DOT (lower s) = map lower (split DOT s).
Proof.
  induction s as [|c s IH]; simpl; [reflexivity|].
  rewrite lower_char_dot. destruct (c =? DOT); simpl.
  - now rewrite IH.
  - rewrite IH. destruct (split DOT s); reflexivity.
Qed.

Lemma last_item_lower (l : list str) :
  last_item (map lower l) = lower (last_item l).
Proof.
  unfold last_item.
  induction l as [|x l IH]; [reflexivity|].
  destruct l as [|y l]; [reflexivity|]. exact IH.
Qed.

End ExtensionFacts.

Import ExtensionFacts.

(** The extension of an upload is what follows the last dot of its name,
    in lower case; a name without a dot is its own extension, and a name
    that ends with a dot has the empty extension. *)
Theorem file_ext_after_last_dot (base ext : str) (content : bytes) :
  ~ In DOT ext ->
  file_ext (mkUploadedFile (base ++ DOT :: ext) content) = lower ext
  /\ file_ext (mkUploadedFile ext content) = lower ext.
Proof.
  intros H. unfold file_ext. simpl.
  rewrite last_item_split_app, (split_whole DOT ext H). split; reflexivity.
Qed.

Lemma file_ext_after_last_dot_sample :
  file_ext (mkUploadedFile (py "my.data.v2" ++ DOT :: py "TSV") []) = py "tsv"
  /\ file_ext (mkUploadedFile (py "CSV") []) = py "csv".
Proof.
  assert (Htsv : ~ In DOT (py "TSV")).
  { simpl. intros H. repeat destruct H as [H|H]; try discriminate H; exact H. }
  assert (Hcsv : ~ In DOT (py "CSV")).
  { simpl. intros H. repeat destruct H as [H|H]; try discriminate H; exact H. }
  split.
  - exact (proj1 (file_ext_after_last_dot (py "my.data.v2") (py "TSV") []
                    Htsv)).
  - exact (proj2 (file_ext_after_last_dot [] (py "CSV") [] Hcsv)).
Defined.

(** For a file name made of ASCII characters, on which [lower] is
    Python's [str.lower] character by character, the letter case of the
    name does not matter: the same name in lower case has the same
    extension, hence the same format. *)
Theorem file_ext_ignores_ascii_case (n : str) (content : bytes) :
  Forall (fun c => c < 128) n ->
  file_ext (mkUploadedFile (lower n) content)
  = file_ext (mkUploadedFile n content).
Proof.
  intros _. unfold file_ext. simpl.
  now rewrite split_lower, last_item_lower, lower_idempotent.
Qed.

Lemma file_ext_ignores_ascii_case_sample :
  file_ext (mkUploadedFile (py "my report.final.csv") [])
  = file_ext (mkUploadedFile (py "My Report.Final.CSV") []).
Proof.
  apply (file_ext_ignores_ascii_case (py "My Report.Final.CSV") []).
  repeat constructor.
Defined.

(** ** The loaders *)

Section LoaderFacts.

Context {libs : Collaborators}.

Lemma report_upload_normal (f : UploadedFile)
    (r : option (result DataFrame)) (s : session_state) :
  exists s' n, report_upload f r s = (Normal tt, s', [n]).
Proof. destruct r as [[d|e]|]; simpl; eauto. Qed.

Lemma report_manual_normal (r : result DataFrame) (s : session_state) :
  exists s' n, report_manual r s = (Normal tt, s', [n]).
Proof. destruct r as [d|e]; simpl; eauto. Qed.

Lemma load_uploaded_file_normal (f : UploadedFile) (s : session_state) :
  exists s' n, load_uploaded_file f s = (Normal tt, s', [n]).
Proof. rewrite load_uploaded_file_report. apply report_upload_normal. Qed.

Lemma load_manual_data_normal (text : str) (s : session_state) :
  exists s' n, load_manual_data text s = (Normal tt, s', [n]).
Proof. rewrite load_manual_data_report. apply report_manual_normal. Qed.

(** No loader lets an exception out or ends silently: each call ends
    normally and shows exactly one notice. *)
Theorem loaders_end_normally (f : UploadedFile) (text : str)
    (s : session_state) :
  (exists s' n, load_uploaded_file f s = (Normal tt, s', [n]))
  /\ (exists s' n, load_manual_data text s = (Normal tt, s', [n]))
  /\ (exists s' n, load_example_data s = (Normal tt, s', [n])).
Proof.
  split; [|split].
  - apply load_uploaded_file_normal.
  - apply load_manual_data_normal.
  - rewrite load_example_data_run. eauto.
Qed.

(** After a load of pasted text, or of an upload of an accepted format, the
    loaded flag tells whether that load succeeded, whatever it was
    before: it is set exactly when the notice shown is a success. *)
Theorem loaded_flag_tells_success (f : UploadedFile) (text : str)
    (s : session_state) :
  (data_loaded (state_of (load_manual_data text s)) = true
   <-> levels_of (load_manual_data text s) = [Success])
  /\ (ingest_upload f <> None ->
      (data_loaded (state_of (load_uploaded_file f s)) = true
       <-> levels_of (load_uploaded_file f s) = [Success])).
Proof.
  split.
  - rewrite load_manual_data_report.
    destruct (ingest_text text); simpl; split; intros H;
      (reflexivity || discriminate H).
  - intros Hsome. rewrite load_uploaded_file_report.
    destruct (ingest_upload f) as [[d|e]|]; simpl; try congruence;
      split; intros H; (reflexivity || discriminate H).
Qed.

(** Loading the same pasted text, or the example data, a second time
    changes nothing more: the session after two such loads in a row is the
    session after one. (Nothing is said of an upload, whose file object is
    consumed by the parser.) *)
Theorem text_and_example_loads_idempotent (text : str) (s : session_state) :
  state_of (load_manual_data text (state_of (load_manual_data text s)))
  = state_of (load_manual_data text s)
  /\ state_of (load_example_data (state_of (load_example_data s)))
     = state_of (load_example_data s).
Proof.
  split.
  - rewrite !load_manual_data_report.
    destruct (ingest_text text); reflexivity.
  - rewrite !load_example_data_run. reflexivity.
Qed.

(** The three loaders keep the flag and the dataset consistent: if the
    loaded flag implied a stored dataset before, it does after. *)
Lemma loaders_keep_session_ok (f : UploadedFile) (text : str)
    (s : session_state) :
  session_ok s ->
  session_ok (state_of (load_uploaded_file f s))
  /\ session_ok (state_of (load_manual_data text s))
  /\ session_ok (state_of (load_example_data s)).
Proof.
  intros Hs. unfold session_ok in *. split; [|split].
  - rewrite load_uploaded_file_report.
    destruct (ingest_upload f) as [[d|e]|]; simpl; try discriminate.
    exact Hs.
  - rewrite load_manual_data_report.
    destruct (ingest_text text); simpl; discriminate.
  - rewrite load_example_data_run. simpl. discriminate.
Qed.

End LoaderFacts.

Lemma loaded_flag_tells_success_sample :
  data_loaded (state_of (load_uploaded_file broken_csv loaded_session)) = true
  <-> levels_of (load_uploaded_file broken_csv loaded_session) = [Success].
Proof.
  apply (proj2 (loaded_flag_tells_success broken_csv text_123 loaded_session)).
  discriminate.
Defined.

(** ** The page *)

Module StripFacts.

Lemma lstrip_keeps (c : char) (s : str) :
  isspace c = false -> In c s -> In c (lstrip s).
Proof.
  intros Hc. induction s as [|x s IH]; simpl; [tauto|].
  intros [E|Hin].
  - subst x. rewrite Hc. now left.
  - destruct (isspace x); [now apply IH|now right].
Qed.

(** [strip] leaves something of a text that holds a character other than
    white space. *)
Lemma strip_keeps (c : char) (s : str) :
  isspace c = false -> In c s -> In c (strip s).
Proof.
  intros Hc Hin. unfold strip, rstrip.
  rewrite <- in_rev. apply lstrip_keeps; [exact Hc|].
  rewrite <- in_rev. now apply lstrip_keeps.
Qed.

End StripFacts.

Import StripFacts.

Section MainFacts.

Context {libs : Collaborators}.

Lemma upload_section_normal (f : option UploadedFile) (s : session_state) :
  exists s' out, upload_section f s = (Normal tt, s', out).
Proof.
  destruct f as [f|]; simpl; [|unfold ret; eauto].
  destruct (load_uploaded_file_normal f s) as [s' [n H]]. eauto.
Qed.

Lemma manual_section_normal (clicked : bool) (text : str)
    (s : session_state) :
  exists s' out, manual_section clicked text s = (Normal tt, s', out).
Proof.
  unfold manual_section. destruct clicked; [|unfold ret; eauto].
  destruct (truthy (strip text)).
  - destruct (load_manual_data_normal text s) as [s' [n H]]. eauto.
  - unfold st_warning, emit. eauto.
Qed.

Lemma example_section_normal (clicked : bool) (s : session_state) :
  exists s' out, example_section clicked s = (Normal tt, s', out).
Proof.
  destruct clicked; simpl; [|unfold ret; eauto].
  rewrite load_example_data_run. eauto.
Qed.

(** [main] runs its three ingestion sections in order, each on the session
    the one before left, then stops unless the loaded flag is set. *)
Lemma main_run (inp : Inputs) (s : session_state) :
  let r1 := upload_section (uploaded_file inp) s in
  let r2 := manual_section (load_manual_clicked inp) (manual_text inp)
                           (state_of r1) in
  let r3 := example_section (use_example_clicked inp) (state_of r2) in
  main inp s =
  if data_loaded (state_of r3)
  then (Normal (df (state_of r3)), state_of r3,
        notices_of r1 ++ notices_of r2 ++ notices_of r3)
  else (Returned, state_of r3,
        notices_of r1 ++ notices_of r2 ++ notices_of r3 ++ [no_data_notice]).
Proof.
  cbv zeta. unfold main, bind, state_of, notices_of.
  fold (upload_section (uploaded_file inp)).
  fold (example_section (use_example_clicked inp)).
  destruct (upload_section_normal (uploaded_file inp) s) as [s1 [o1 H1]].
  rewrite !H1. cbn [fst snd].
  destruct (manual_section_normal (load_manual_clicked inp) (manual_text inp)
              s1) as [s2 [o2 H2]].
  rewrite !H2. cbn [fst snd].
  destruct (example_section_normal (use_example_clicked inp) s2)
    as [s3 [o3 H3]].
  rewrite !H3. cbn [fst snd].
  unfold get_data_loaded, get_df, st_info, emit, return_, no_data_notice.
  destruct (data_loaded s3); simpl; rewrite ?app_nil_r; reflexivity.
Qed.

End MainFacts.

Section PageFacts.

Context {libs : Collaborators}.

Lemma manual_section_nonblank (text : str) (c : char) (s : session_state) :
  In c text -> isspace c = false ->
  manual_section true text s = load_manual_data text s.
Proof.
  intros Hin Hc. unfold manual_section.
  pose proof (strip_keeps c text Hc Hin) as H.
  destruct (strip text); [contradiction|reflexivity].
Qed.

(** A pasted text that holds a character other than white space passes the
    guard of the button: it is handed to [load_manual_data] as it is,
    white space around it included. *)
Theorem nonblank_manual_text_loaded (text : str) (c : char)
    (s : session_state) :
  In c text -> isspace c = false ->
  manual_section true text s = load_manual_data text s.
Proof. apply manual_section_nonblank. Qed.

(** [main] never lets an exception out. It goes on to the plots exactly
    when the loaded flag is set once the three ingestion sections ran, and
    then with the stored dataset; otherwise it returns early. *)
Theorem main_proceeds_iff_loaded (inp : Inputs) (s : session_state) :
  outcome_of (main inp s) =
  if data_loaded (state_of (main inp s))
  then Normal (df (state_of (main inp s)))
  else Returned.
Proof.
  pose proof (main_run inp s) as H. cbv zeta in H. rewrite H.
  destruct (data_loaded _) eqn:E; unfold outcome_of, state_of; simpl;
    unfold state_of in E; rewrite E; reflexivity.
Qed.

Lemma sections_keep_session_ok (inp : Inputs) (s : session_state) :
  session_ok s ->
  session_ok
    (state_of (example_section (use_example_clicked inp)
       (state_of (manual_section (load_manual_clicked inp) (manual_text inp)
          (state_of (upload_section (uploaded_file inp) s)))))).
Proof.
  intros Hs.
  assert (H1 : session_ok (state_of (upload_section (uploaded_file inp) s))).
  { destruct (uploaded_file inp) as [f|]; simpl; [|exact Hs].
    now apply (loaders_keep_session_ok f []). }
  set (s1 := state_of (upload_section (uploaded_file inp) s)) in *.
  assert (H2 : session_ok (state_of (manual_section (load_manual_clicked inp)
                                       (manual_text inp) s1))).
  { unfold manual_section. destruct (load_manual_clicked inp); [|exact H1].
    destruct (truthy (strip (manual_text inp))); [|exact H1].
    now apply (loaders_keep_session_ok (mkUploadedFile [] [])). }
  set (s2 := state_of (manual_section _ _ s1)) in *.
  destruct (use_example_clicked inp); simpl; [|exact H2].
  now apply (loaders_keep_session_ok (mkUploadedFile [] []) []).
Qed.

(** The loaded flag never stands without a dataset: if it implied a
    stored dataset before a loader or a run of [main], it does after, and
    what [main] hands to the plots is then a dataset, never [None]. A fresh
    session starts that way. *)
Theorem session_stays_consistent (inp : Inputs) (f : UploadedFile)
    (text : str) (s : session_state) :
  session_ok (main_session None)
  /\ (session_ok s ->
      session_ok (state_of (load_uploaded_file f s))
      /\ session_ok (state_of (load_manual_data text s))
      /\ session_ok (state_of (load_example_data s))
      /\ session_ok (state_of (main inp s))
      /\ (forall x, outcome_of (main inp s) = Normal x ->
                    exists d, x = Some d)).
Proof.
  split; [intros H; discriminate H|].
  intros Hs.
  destruct (loaders_keep_session_ok f text s Hs) as [Hu [Hm He]].
  repeat (split; [assumption|]).
  pose proof (sections_keep_session_ok inp s Hs) as Hok.
  pose proof (main_run inp s) as H. cbv zeta in H. rewrite H.
  set (s3 := state_of (example_section _ _)) in *.
  destruct (data_loaded s3) eqn:E; unfold state_of, outcome_of; simpl.
  - split; [exact Hok|].
    intros x Hx. injection Hx as <-.
    destruct (df s3) as [d|] eqn:Ed; [eauto|].
    exfalso. now apply (Hok E).
  - split; [exact Hok|]. intros x Hx. discriminate Hx.
Qed.

(** The example button has the last word: when it is clicked, the run ends
    with the example dataset stored, the flag set and the page going on to
    the plots, whatever was uploaded or pasted in the same run. *)
Theorem example_button_wins (inp : Inputs) (s : session_state) :
  use_example_clicked inp = true ->
  state_of (main inp s) = mkSession (Some px_data_tips) true
  /\ outcome_of (main inp s) = Normal (Some px_data_tips).
Proof.
  intros Hex. pose proof (main_run inp s) as H. cbv zeta in H.
  rewrite H, Hex. simpl example_section.
  rewrite load_example_data_run. unfold state_of, outcome_of. simpl.
  split; reflexivity.
Qed.

(** A run with no upload and no button clicked leaves the session as it
    was; it goes on with the stored dataset when the flag is set and
    otherwise shows the request to provide data, and nothing else. *)
Theorem idle_run_keeps_session (text : str) (s : session_state) :
  main (mkInputs None text false false) s =
  if data_loaded s
  then (Normal (df s), s, [])
  else (Returned, s, [no_data_notice]).
Proof.
  pose proof (main_run (mkInputs None text false false) s) as H.
  cbv zeta in H. rewrite H. reflexivity.
Qed.

(** The uploaded file is read again on every run: with a readable upload
    and no button clicked, the run ends with the dataset of the upload
    stored, whatever dataset the session held (example data included). *)
Theorem upload_replaces_stored (f : UploadedFile) (d : DataFrame)
    (text : str) (s : session_state) :
  ingest_upload f = Some (Ok d) ->
  state_of (main (mkInputs (Some f) text false false) s)
  = mkSession (Some d) true
  /\ outcome_of (main (mkInputs (Some f) text false false) s)
     = Normal (Some d).
Proof.
  intros Hf.
  pose proof (main_run (mkInputs (Some f) text false false) s) as H.
  cbv zeta in H. rewrite H. simpl.
  rewrite load_uploaded_file_report, Hf. split; reflexivity.
Qed.

(** A pasted text that fails to parse hides an upload that succeeded in
    the same run: the dataset of the upload stays stored, but the flag is
    cleared and the page stops, after a success notice, an error notice
    and the request to provide data. *)
Theorem failed_paste_hides_upload (f : UploadedFile) (d : DataFrame)
    (text : str) (c : char) (e : exn) (s : session_state) :
  ingest_upload f = Some (Ok d) ->
  In c text -> isspace c = false ->
  ingest_text text = Err e ->
  state_of (main (mkInputs (Some f) text true false) s)
  = mkSession (Some d) false
  /\ outcome_of (main (mkInputs (Some f) text true false) s) = Returned
  /\ levels_of (main (mkInputs (Some f) text true false) s)
     = [Success; Error; Info].
Proof.
  intros Hf Hin Hc He.
  pose proof (main_run (mkInputs (Some f) text true false) s) as H.
  cbv zeta in H. rewrite H. simpl.
  rewrite load_uploaded_file_report, Hf. simpl.
  unfold state_of at 2 4 6. simpl.
  rewrite !(manual_section_nonblank text c _ Hin Hc).
  rewrite !load_manual_data_report, He. simpl.
  repeat split.
Qed.

End PageFacts.

Lemma nonblank_manual_text_loaded_sample :
  manual_section true [SPACE; 97; COMMA; 98; LF] fresh_session
  = load_manual_data [SPACE; 97; COMMA; 98; LF] fresh_session.
Proof.
  apply (nonblank_manual_text_loaded [SPACE; 97; COMMA; 98; LF] 97
           fresh_session).
  - right. left. reflexivity.
  - reflexivity.
Defined.

Lemma session_stays_consistent_sample :
  session_ok (state_of (main (mkInputs (Some broken_csv) text_spaces true false)
                             loaded_session)).
Proof.
  assert (H : session_ok loaded_session) by (intros _; discriminate).
  exact (proj1 (proj2 (proj2 (proj2
           (proj2 (session_stays_consistent
                     (mkInputs (Some broken_csv) text_spaces true false)
                     broken_csv text_spaces loaded_session) H))))).
Defined.

Lemma example_button_wins_sample :
  state_of (main (mkInputs (Some broken_csv) text_spaces true true)
                 fresh_session)
  = mkSession (Some sample_tips) true.
Proof.
  exact (proj1 (example_button_wins
                  (mkInputs (Some broken_csv) text_spaces true true)
                  fresh_session eq_refl)).
Defined.

Lemma upload_replaces_stored_sample :
  exists d,
    state_of (main (mkInputs (Some small_csv) [] false false) loaded_session)
    = mkSession (Some d) true
    /\ outcome_of (main (mkInputs (Some small_csv) [] false false)
                        loaded_session) = Normal (Some d).
Proof.
  eexists.
  eapply (upload_replaces_stored small_csv _ [] loaded_session).
  reflexivity.
Defined.

Lemma failed_paste_hides_upload_sample :
  exists d,
    state_of (main (mkInputs (Some small_csv) text_spaces true false)
                   fresh_session) = mkSession (Some d) false
    /\ outcome_of (main (mkInputs (Some small_csv) text_spaces true false)
                        fresh_session) = Returned
    /\ levels_of (main (mkInputs (Some small_csv) text_spaces true false)
                       fresh_session) = [Success; Error; Info].
Proof.
  eexists.
  eapply (failed_paste_hides_upload small_csv _ text_spaces 97 _
            fresh_session).
  - reflexivity.
  - left. reflexivity.
  - reflexivity.
  - reflexivity.
Defined.

(** ** The plot configuration *)

Import PlotConfig MoreSamples.

Lemma filter_split_perm {A} (p : A -> bool) (l : list A) :
  Permutation (filter p l ++ filter (fun x => negb (p x)) l) l.
Proof.
  induction l as [|x l IH]; simpl; [constructor|].
  destruct (p x); simpl.
  - now constructor.
  - apply Permutation_sym, Permutation_cons_app, Permutation_sym, IH.
Qed.

Lemma numeric_cols_numeric (d : DataFrame) (n : str) :
  In n (numeric_cols d) -> has_column d n Numeric.
Proof.
  unfold numeric_cols. rewrite in_map_iff. intros [c [E Hc]].
  apply filter_In in Hc. destruct Hc as [Hin Hnum].
  exists c. repeat split; try assumption.
  destruct (col_dtype c); [reflexivity|discriminate Hnum].
Qed.

(** Every column is offered once: the numeric columns and the other
    columns, taken together, are the columns of the dataset; the first are
    numeric columns of the dataset and the second are not. *)
Theorem columns_split_by_dtype (d : DataFrame) :
  Permutation (numeric_cols d ++ categorical_cols d) (all_cols d)
  /\ (forall n, In n (numeric_cols d) -> has_column d n Numeric)
  /\ (forall n, In n (categorical_cols d) -> has_column d n Categorical).
Proof.
  split; [|split].
  - unfold numeric_cols, categorical_cols, all_cols, column_names.
    rewrite <- map_app. apply Permutation_map, filter_split_perm.
  - apply numeric_cols_numeric.
  - intros n. unfold categorical_cols. rewrite in_map_iff.
    intros [c [E Hc]]. apply filter_In in Hc. destruct Hc as [Hin Hcat].
    exists c. repeat split; try assumption.
    destruct (col_dtype c); [discriminate Hcat|reflexivity].
Qed.

Lemma columns_split_by_dtype_sample :
  has_column sample_tips (py "tip") Numeric
  /\ has_column sample_tips (py "day") Categorical.
Proof.
  split.
  - apply (proj1 (proj2 (columns_split_by_dtype sample_tips))).
    right. left. reflexivity.
  - apply (proj2 (proj2 (columns_split_by_dtype sample_tips))).
    do 2 right. left. reflexivity.
Defined.

(** The dimensions preselected for the pair plot are the first numeric
    columns of the dataset, three at most, and all of them when the dataset
    has no more than three. *)
Theorem default_dimensions_numeric (d : DataFrame) :
  (List.length (default_dimensions d) <= 3)%nat
  /\ (exists rest, numeric_cols d = default_dimensions d ++ rest)
  /\ (forall n, In n (default_dimensions d) -> has_column d n Numeric)
  /\ ((List.length (numeric_cols d) <= 3)%nat ->
      default_dimensions d = numeric_cols d).
Proof.
  unfold default_dimensions. split; [|split; [|split]].
  - apply firstn_le_length.
  - exists (skipn 3 (numeric_cols d)). symmetry. apply firstn_skipn.
  - intros n Hin. apply numeric_cols_numeric.
    rewrite <- (firstn_skipn 3 (numeric_cols d)).
    apply in_or_app. now left.
  - intros H. now apply firstn_all2.
Qed.

Lemma default_dimensions_numeric_sample :
  default_dimensions sample_tips = [py "total_bill"; py "tip"; py "size"].
Proof.
  apply (proj2 (proj2 (proj2 (default_dimensions_numeric sample_tips)))).
  simpl. lia.
Defined.

(** A column that is itself named "None" cannot be chosen for colouring:
    picking it in "Color by" gives no colour, as the first option does;
    every other column picked is the colour. *)
Theorem color_none_column (d : DataFrame) (k : nat) (c : str) :
  selectbox (color_options d) (S k) = Some c ->
  In c (all_cols d)
  /\ (c = py "None" -> color_var (selectbox (color_options d) (S k)) = None)
  /\ (c <> py "None" ->
      color_var (selectbox (color_options d) (S k)) = Some c)
  /\ color_var (selectbox (color_options d) 0) = None.
Proof.
  unfold selectbox, color_options. simpl. intros H.
  split; [eapply nth_error_In; exact H|].
  rewrite H. unfold color_var, str_eqb.
  split; [|split].
  - intros E. subst c.
    destruct (list_eq_dec N.eq_dec (py "None") (py "None"));
      [reflexivity|congruence].
  - intros Hne.
    destruct (list_eq_dec N.eq_dec c (py "None")); [contradiction|reflexivity].
  - reflexivity.
Qed.

Lemma color_none_column_sample :
  color_var (selectbox (color_options none_column) 2) = None
  /\ color_var (selectbox (color_options none_column) 1) = Some (py "x").
Proof.
  split.
  - apply (proj1 (proj2 (color_none_column none_column 1 (py "None")
                           eq_refl))).
    reflexivity.
  - apply (proj1 (proj2 (proj2 (color_none_column none_column 0 (py "x")
                                  eq_refl)))).
    discriminate.
Defined.
